(** * iorapd_utils: helper library for iorapd related operations

    A shallow embedding of [startop/scripts/iorap/lib/iorapd_utils.py].

    Every Python function of the module becomes a computation in a small
    state-and-exception monad [Py] over a [World] that holds what the module
    can observe or change: the local files that exist, the process
    environment, what was printed, and the calls delegated to [cmd_utils].
    The collaborators of [lib.cmd_utils] are not part of the module; their
    answers are a parameter ([Host]). *)

From Stdlib Require Import ZArith Ascii String.
From stdpp Require Import base strings list gmap pretty.

(** ** Python strings *)

(** The double-quote character, built from its code so that no literal has
    to escape it. *)
Definition dquote : string := String (Ascii.ascii_of_nat 34) EmptyString.

(** [str.format] restricted to what the module uses: automatically numbered
    replacement fields [{}] filled with [str] arguments, plus the two brace
    escapes. [None] stands for the exception Python raises: [IndexError] when
    the arguments run out, [ValueError] on a lone brace. Surplus arguments
    are ignored, as in Python. *)
Fixpoint py_format (template : string) (args : list string) : option string :=
  match template with
  | EmptyString => Some EmptyString
  | String c rest =>
      if Ascii.eqb c "{"%char then
        match rest with
        | String d rest' =>
            if Ascii.eqb d "}"%char then
              match args with
              | [] => None
              | a :: args' => option_map (String.append a) (py_format rest' args')
              end
            else if Ascii.eqb d "{"%char then
              option_map (String "{"%char) (py_format rest' args)
            else None
        | EmptyString => None
        end
      else if Ascii.eqb c "}"%char then
        match rest with
        | String d rest' =>
            if Ascii.eqb d "}"%char then
              option_map (String "}"%char) (py_format rest' args)
            else None
        | EmptyString => None
        end
      else option_map (String c) (py_format rest args)
  end.

(** The number of decimal digits of a Python [int], the sign not counted. *)
Definition decimal_digits (n : Z) : nat := String.length (pretty (Z.abs n)).

(** [str(n)] for a Python [int]: decimal digits, with a leading [-] for a
    negative number. Integers are unbounded, as in Python. [limit] is the
    interpreter's [sys.get_int_max_str_digits()]: 0 when conversions are not
    limited (and on interpreters without the setting), 4300 unless set
    otherwise, never between 1 and 639. With a limit, converting a number of
    more digits raises [ValueError], here [None]. *)
Definition py_str_int (limit : nat) (n : Z) : option string :=
  if (limit =? 0)%nat || (decimal_digits n <=? limit)%nat
  then Some (pretty n)
  else None.

(** [needle in haystack] for strings, as a proposition. *)
Definition mentions (haystack needle : string) : Prop :=
  exists before after, haystack = before +:+ needle +:+ after.

(** ** The world the module runs in *)

(** A call delegated to [lib.cmd_utils]. *)
Inductive Call : Type :=
| AdbShellCommand (cmd : string)
    (* cmd_utils.run_adb_shell_command(cmd) *)
| ShellCommand (cmd : string)
    (* cmd_utils.run_shell_command(cmd) *)
| ShellFunc (script func : string) (args : list string).
    (* cmd_utils.run_shell_func(script, func, args) *)

(** A delegated call together with the process environment it was made in
    (the environment a child process inherits). *)
Record Invocation : Type := mkInvocation {
  inv_call : Call;
  inv_environ : gmap string string;
}.

Record World : Type := mkWorld {
  local_files : gset string;          (* paths for which os.path.exists holds *)
  environ : gmap string string;       (* the process environment *)
  stdout : list string;               (* lines printed so far, oldest first *)
  invocations : list Invocation;      (* delegated calls so far, oldest first *)
}.

(** What a delegate returns: [(passed, output)]. *)
Definition Outcome : Type := bool * option string.

(** The collaborators: the answer to a delegated call may depend on
    everything that happened before it. *)
Record Host : Type := mkHost {
  respond : World -> Call -> Outcome;
}.

(** ** The monad of Python computations *)

(** A computation takes the world and gives back a value, or [None] when an
    exception was raised, and the world it left. *)
Definition Py (A : Type) : Type := World -> option A * World.

Definition ret {A} (a : A) : Py A := fun w => (Some a, w).

Definition bind {A B} (m : Py A) (k : A -> Py B) : Py B :=
  fun w =>
    match m w with
    | (Some a, w') => k a w'
    | (None, w') => (None, w')
    end.

Notation "x <- c1 ;; c2" := (bind c1 (fun x => c2))
  (at level 60, c1 at next level, right associativity).
Notation "c1 ;;; c2" := (bind c1 (fun _ => c2))
  (at level 60, right associativity).

(** A pure result that may be an exception. *)
Definition lift_option {A} (o : option A) : Py A := fun w => (o, w).

(** ['...'.format(...)] *)
Definition str_format (template : string) (args : list string) : Py string :=
  lift_option (py_format template args).

(** [os.path.exists(path)] *)
Definition os_path_exists (path : string) : Py bool :=
  fun w => (Some (bool_decide (path ∈ local_files w)), w).

(** [print(line)] *)
Definition print (line : string) : Py unit :=
  fun w => (Some tt,
            mkWorld (local_files w) (environ w) (stdout w ++ [line])
                    (invocations w)).

(** [os.putenv(key, value)]: sets the variable in the environment of the
    process, the one child processes inherit. *)
Definition os_putenv (key value : string) : Py unit :=
  fun w => (Some tt,
            mkWorld (local_files w) (<[key := value]> (environ w)) (stdout w)
                    (invocations w)).

(** Record a delegated call, with the environment it is made in. *)
Definition log_call (c : Call) (w : World) : World :=
  mkWorld (local_files w) (environ w) (stdout w)
          (invocations w ++ [mkInvocation c (environ w)]).

(** The delegated calls made from world [w] on, up to world [w']. *)
Definition new_invocations (w w' : World) : list Invocation :=
  drop (length (invocations w)) (invocations w').

Definition new_calls (w w' : World) : list Call :=
  inv_call <$> new_invocations w w'.

(** A file push is a local shell command that starts with [adb push]. *)
Definition is_push (c : Call) : bool :=
  match c with
  | ShellCommand cmd => String.prefix "adb push " cmd
  | _ => false
  end.

Definition push_count (cs : list Call) : nat :=
  length (filter (fun c => is_push c = true) cs).

Section IorapdUtils.

(** The answers of [lib.cmd_utils]. *)
Variable host : Host.

(** [os.path.realpath(os.path.join(IORAPID_LIB_DIR, '../common'))]: fixed
    when the module is loaded, from where it is installed. *)
Variable IORAP_COMMON_BASH_SCRIPT : string.

(** [sys.get_int_max_str_digits()] of the interpreter that runs the module. *)
Variable int_max_str_digits : nat.

(** A delegated call: the host answers in the current world, and the call
    is recorded with the environment it ran in. *)
Definition delegate (c : Call) : Py Outcome :=
  fun w => (Some (respond host w c), log_call c w).

Definition run_adb_shell_command (cmd : string) : Py Outcome :=
  delegate (AdbShellCommand cmd).

Definition run_shell_command (cmd : string) : Py Outcome :=
  delegate (ShellCommand cmd).

Definition run_shell_func (script func : string) (args : list string)
  : Py Outcome :=
  delegate (ShellFunc script func args).

Definition IORAPD_DATA_PATH : string := "/data/misc/iorapd".

Definition _iorapd_path_to_data_file (package activity suffix : string)
  : Py string :=
  str_format "{}/{}%2F{}.{}" [IORAPD_DATA_PATH; package; activity; suffix].

Definition iorapd_compiler_install_trace_file
  (package activity input_file : string) : Py bool :=
  compiled_path <- _iorapd_path_to_data_file package activity
                                             "compiled_trace.pb" ;;
  present <- os_path_exists input_file ;;
  if negb present then
    (msg <- str_format "Error: File {} does not exist" [input_file] ;;
     print msg ;;;
     ret false)
  else
    (mkdir <- str_format
                ("mkdir -p " +:+ dquote +:+ "$(dirname " +:+ dquote +:+ "{}"
                 +:+ dquote +:+ ")" +:+ dquote)
                [compiled_path] ;;
     r <- run_adb_shell_command mkdir ;;
     let passed := fst r in
     if negb passed then ret false
     else
       (push <- str_format
                  ("adb push " +:+ dquote +:+ "{}" +:+ dquote +:+ " "
                   +:+ dquote +:+ "{}" +:+ dquote)
                  [input_file; compiled_path] ;;
        r <- run_shell_command push ;;
        let passed := fst r in
        ret passed)).

Definition wait_for_iorapd_finish
  (package activity : string) (timeout : Z) (debug : bool)
  (logcat_timestamp : string) : Py bool :=
  (if debug then os_putenv "verbose" "y" else ret tt) ;;;
  timeout_str <- lift_option (py_str_int int_max_str_digits timeout) ;;
  r <- run_shell_func IORAP_COMMON_BASH_SCRIPT
                      "iorapd_readahead_wait_until_finished"
                      [package; activity; logcat_timestamp; timeout_str] ;;
  let passed := fst r in
  ret passed.

Definition enable_iorapd_readahead : Py bool :=
  r <- run_shell_func IORAP_COMMON_BASH_SCRIPT
                      "iorapd_readahead_enable" [] ;;
  let passed := fst r in
  ret passed.

Definition disable_iorapd_readahead : Py bool :=
  r <- run_shell_func IORAP_COMMON_BASH_SCRIPT
                      "iorapd_readahead_disable" [] ;;
  let passed := fst r in
  ret passed.

End IorapdUtils.


(** ** Vocabulary of the statements *)

(** The strings the installer is expected to build, written out. They are
    compared below with what the code builds through [str.format]. *)
Definition compiled_trace_path (package activity : string) : string :=
  "/data/misc/iorapd/" +:+ package +:+ "%2F" +:+ activity
  +:+ ".compiled_trace.pb".

Definition mkdir_command (package activity : string) : string :=
  "mkdir -p " +:+ dquote +:+ "$(dirname " +:+ dquote
  +:+ compiled_trace_path package activity +:+ dquote +:+ ")" +:+ dquote.

Definition push_command (package activity input_file : string) : string :=
  "adb push " +:+ dquote +:+ input_file +:+ dquote +:+ " " +:+ dquote
  +:+ compiled_trace_path package activity +:+ dquote.

Definition missing_file_message (input_file : string) : string :=
  "Error: File " +:+ input_file +:+ " does not exist".

(** The value of a string of decimal digits, read from the left onto
    [acc]; [None] when a character is not a digit. *)
Fixpoint digits_value (acc : N) (s : string) : option N :=
  match s with
  | EmptyString => Some acc
  | String c s' =>
      match Ascii.is_nat c with
      | Some d => digits_value (10 * acc + N.of_nat d) s'
      | None => None
      end
  end.

(** Reading a decimal numeral back, as the shell function (or [int(s)])
    would: an optional [-], then at least one digit. *)
Definition int_of_decimal (s : string) : option Z :=
  match s with
  | EmptyString => None
  | String c s' =>
      if Ascii.eqb c "-"%char then
        match s' with
        | EmptyString => None
        | _ => option_map (fun v => (- Z.of_N v)%Z) (digits_value 0 s')
        end
      else option_map Z.of_N (digits_value 0 s)
  end.

(** The one way [str] writes an integer: no leading zero except for the
    numeral [0] itself, and no minus sign before a zero. *)
Definition canonical_decimal (s : string) : bool :=
  match s with
  | EmptyString => false
  | String c s' =>
      if Ascii.eqb c "-"%char then negb (String.prefix "0" s')
      else negb (Ascii.eqb c "0"%char) || String.eqb s' EmptyString
  end.

(** The integers [str] converts under the digit limit [limit]: all of them
    when there is no limit, otherwise those of at most [limit] decimal
    digits, that is, those below [10 ^ limit] in absolute value. *)
Definition str_convertible (limit : nat) (n : Z) : Prop :=
  limit = 0 \/ (Z.abs n < 10 ^ Z.of_nat limit)%Z.

(** [sys.int_info.default_max_str_digits] *)
Definition default_int_max_str_digits : nat := 4300.

(** The call [wait_for_iorapd_finish] delegates, the timeout written in
    decimal. *)
Definition wait_call (script package activity : string) (timeout : Z)
  (logcat_timestamp : string) : Call :=
  ShellFunc script "iorapd_readahead_wait_until_finished"
            [package; activity; logcat_timestamp; pretty timeout].

(** The names of the shell functions among some delegated calls. *)
Definition shell_func_names (cs : list Call) : list string :=
  omap (fun c => match c with
                 | ShellFunc _ func _ => Some func
                 | _ => None
                 end) cs.

(** The world after [os.putenv('verbose', 'y')]. *)
Definition verbose_world (w : World) : World :=
  mkWorld (local_files w) (<["verbose" := "y"]> (environ w)) (stdout w)
          (invocations w).

(** ** Sample hosts and worlds *)

(** Every delegated call succeeds, without output. *)
Definition host_all_pass : Host := mkHost (fun _ _ => (true, None)).

(** The device refuses every adb shell command; everything else succeeds. *)
Definition host_adb_shell_fails : Host :=
  mkHost (fun _ c =>
            match c with
            | AdbShellCommand _ => (false, Some "mkdir: Permission denied")
            | _ => (true, None)
            end).

(** Pushing fails, everything else succeeds. *)
Definition host_push_fails : Host :=
  mkHost (fun _ c => (negb (is_push c), None)).

(** A fresh process with no local file at all. *)
Definition world_empty : World := mkWorld ∅ ∅ [] [].

(** A fresh process that has the trace file. *)
Definition world_with_trace : World := mkWorld {["/tmp/trace.pb"]} ∅ [] [].

Definition sample_script : string := "/startop/scripts/iorap/common".

(** ** Basic facts about the embedding *)

Lemma bind_value {A B} (m : Py A) (k : A -> Py B) w a w' :
  m w = (Some a, w') -> bind m k w = k a w'.
Proof. intros E. unfold bind. by rewrite E. Qed.

Lemma bind_raise {A B} (m : Py A) (k : A -> Py B) w w' :
  m w = (None, w') -> bind m k w = (None, w').
Proof. intros E. unfold bind. by rewrite E. Qed.

Lemma new_invocations_log_call c w :
  new_invocations w (log_call c w) = [mkInvocation c (environ w)].
Proof. unfold new_invocations, log_call; simpl. apply drop_app_length. Qed.

Lemma new_invocations_refl w : new_invocations w w = [].
Proof. unfold new_invocations. apply drop_all. Qed.

Lemma new_invocations_log_call2 c1 c2 w :
  new_invocations w (log_call c2 (log_call c1 w))
  = [mkInvocation c1 (environ w); mkInvocation c2 (environ w)].
Proof.
  unfold new_invocations, log_call; simpl.
  rewrite <- (assoc_L (++)). apply drop_app_length.
Qed.

Lemma py_str_int_samples :
  py_str_int 4300 30 = Some "30" /\ py_str_int 4300 0 = Some "0"
  /\ py_str_int 0 (-7) = Some "-7" /\ py_str_int 2 (-107) = None.
Proof. repeat split; vm_compute; reflexivity. Qed.

Lemma py_format_samples :
  py_format "a{}b{{}}" ["X"] = Some "aXb{}"
  /\ py_format "{} {}" ["X"] = None
  /\ py_format "{}" ["{}"; "Y"] = Some "{}"
  /\ py_format "}" [] = None.
Proof. repeat split. Qed.

Lemma append_empty_r (s : string) : s +:+ EmptyString = s.
Proof.
  induction s as [|c s IH]; [done |].
  change (String c (s +:+ EmptyString) = String c s). by rewrite IH.
Qed.

Lemma append_assoc (s1 s2 s3 : string) :
  (s1 +:+ s2) +:+ s3 = s1 +:+ (s2 +:+ s3).
Proof.
  induction s1 as [|c s1 IH]; [done |].
  change (String c ((s1 +:+ s2) +:+ s3) = String c (s1 +:+ (s2 +:+ s3))).
  by rewrite IH.
Qed.

(** A template without braces is copied as it stands. *)
Lemma py_format_literal (template : string) (args : list string) :
  forallb (fun c => negb (Ascii.eqb c "{") && negb (Ascii.eqb c "}"))
          (list_ascii_of_string template) = true ->
  py_format template args = Some template.
Proof.
  induction template as [|c rest IH]; simpl; [done |].
  intros H. apply andb_prop in H as [Hc Hrest].
  apply andb_prop in Hc as [Hopen Hclose].
  apply negb_true_iff in Hopen, Hclose. rewrite Hopen, Hclose.
  by rewrite (IH Hrest).
Qed.

(** A brace-free prefix is copied, and the field after it takes the next
    argument. *)
Lemma py_format_field (before rest a : string) (args : list string) :
  forallb (fun c => negb (Ascii.eqb c "{") && negb (Ascii.eqb c "}"))
          (list_ascii_of_string before) = true ->
  py_format (before +:+ "{}" +:+ rest) (a :: args)
  = option_map (fun r => before +:+ a +:+ r) (py_format rest args).
Proof.
  induction before as [|c before IH]; [done |].
  change (String c before +:+ "{}" +:+ rest)
    with (String c (before +:+ "{}" +:+ rest)).
  change (fun r => String c before +:+ a +:+ r)
    with (fun r => String c (before +:+ a +:+ r)).
  simpl. intros H. apply andb_prop in H as [Hc Hbefore].
  apply andb_prop in Hc as [Hopen Hclose].
  apply negb_true_iff in Hopen, Hclose. rewrite Hopen, Hclose.
  rewrite (IH Hbefore). by destruct (py_format rest args).
Qed.

(** The path the code formats is the path written out. *)
Lemma path_to_data_file_run package activity suffix w :
  _iorapd_path_to_data_file package activity suffix w
  = (Some ("/data/misc/iorapd/" +:+ package +:+ "%2F" +:+ activity +:+ "."
           +:+ suffix), w).
Proof.
  unfold _iorapd_path_to_data_file, str_format, lift_option; simpl.
  by rewrite append_empty_r.
Qed.

(** ** The path deriver *)

(** C1: for every package, activity and suffix the path deriver returns
    exactly ['/data/misc/iorapd/' + package + '%2F' + activity + '.' + suffix];
    for the suffix [compiled_trace.pb] this is
    [/data/misc/iorapd/<package>%2F<activity>.compiled_trace.pb], and for
    [com.example.app] and [MainActivity] the path of the scenario. *)
Theorem path_to_data_file_exact (package activity suffix : string) (w : World) :
  fst (_iorapd_path_to_data_file package activity suffix w)
  = Some ("/data/misc/iorapd/" +:+ package +:+ "%2F" +:+ activity +:+ "."
          +:+ suffix)
  /\ fst (_iorapd_path_to_data_file package activity "compiled_trace.pb" w)
     = Some ("/data/misc/iorapd/" +:+ package +:+ "%2F" +:+ activity
             +:+ ".compiled_trace.pb")
  /\ fst (_iorapd_path_to_data_file "com.example.app" "MainActivity"
                                    "compiled_trace.pb" w)
     = Some "/data/misc/iorapd/com.example.app%2FMainActivity.compiled_trace.pb".
Proof. by rewrite !path_to_data_file_run. Qed.

(** C8: the path deriver is deterministic and free of side effects: it
    leaves the world as it found it, it always returns a string (no
    exception), and the string depends on the three arguments only, not on
    the world it is called in. *)
Theorem path_to_data_file_pure (package activity suffix : string)
  (w1 w2 : World) :
  snd (_iorapd_path_to_data_file package activity suffix w1) = w1
  /\ is_Some (fst (_iorapd_path_to_data_file package activity suffix w1))
  /\ fst (_iorapd_path_to_data_file package activity suffix w1)
     = fst (_iorapd_path_to_data_file package activity suffix w2).
Proof.
  rewrite !path_to_data_file_run; simpl. split_and!; [done | by eexists | done].
Qed.

(** ** The installer, step by step *)

Lemma missing_file_format (input_file : string) :
  py_format "Error: File {} does not exist" [input_file]
  = Some (missing_file_message input_file).
Proof. reflexivity. Qed.

Lemma mkdir_format (package activity : string) :
  py_format ("mkdir -p " +:+ dquote +:+ "$(dirname " +:+ dquote +:+ "{}"
             +:+ dquote +:+ ")" +:+ dquote)
            [compiled_trace_path package activity]
  = Some (mkdir_command package activity).
Proof. reflexivity. Qed.

Lemma push_format (package activity input_file : string) :
  py_format ("adb push " +:+ dquote +:+ "{}" +:+ dquote +:+ " " +:+ dquote
             +:+ "{}" +:+ dquote)
            [input_file; compiled_trace_path package activity]
  = Some (push_command package activity input_file).
Proof. reflexivity. Qed.

(** The whole control flow of [iorapd_compiler_install_trace_file]: what it
    returns and the world it leaves, by the three ways it can go. *)
Lemma install_trace_file_run host package activity input_file w :
  iorapd_compiler_install_trace_file host package activity input_file w
  = if bool_decide (input_file ∈ local_files w) then
      let mk := AdbShellCommand (mkdir_command package activity) in
      if fst (respond host w mk) then
        let pu := ShellCommand (push_command package activity input_file) in
        (Some (fst (respond host (log_call mk w) pu)),
         log_call pu (log_call mk w))
      else (Some false, log_call mk w)
    else
      (Some false,
       mkWorld (local_files w) (environ w)
               (stdout w ++ [missing_file_message input_file])
               (invocations w)).
Proof.
  unfold iorapd_compiler_install_trace_file.
  rewrite (bind_value _ _ w (compiled_trace_path package activity) w)
    by apply path_to_data_file_run.
  unfold bind at 1, os_path_exists.
  destruct (bool_decide (input_file ∈ local_files w)); cbn [negb].
  - unfold bind at 1, str_format, lift_option. rewrite mkdir_format.
    unfold bind at 1, run_adb_shell_command, delegate.
    destruct (fst (respond host w _)); cbn [negb fst]; [| done].
    unfold bind at 1. rewrite push_format.
    unfold bind, run_shell_command, delegate, ret. done.
  - unfold bind at 1, str_format, lift_option. rewrite missing_file_format.
    done.
Qed.

(** Both readahead switches and the wait, each as one delegated call. *)
(** ** Decimal numerals *)

Lemma pretty_N_go_append (x : N) (s : string) :
  pretty_N_go x s = pretty_N_go x EmptyString +:+ s.
Proof.
  revert s. induction (N.lt_wf_0 x) as [x _ IH]; intros s.
  assert (x = 0 \/ 0 < x)%N as [-> | Hpos] by lia.
  - by rewrite !pretty_N_go_0.
  - rewrite !(pretty_N_go_step x) by done.
    assert (Hlt : (x `div` 10 < x)%N) by (by apply N.div_lt).
    rewrite (IH _ Hlt (String _ s)), (IH _ Hlt (String _ EmptyString)).
    by rewrite append_assoc.
Qed.

(** The last digit is the remainder, the digits before it the quotient. *)
Lemma pretty_N_go_last (x : N) :
  (0 < x)%N ->
  pretty_N_go x EmptyString
  = pretty_N_go (x `div` 10) EmptyString
    +:+ String (pretty_N_char (x `mod` 10)) EmptyString.
Proof.
  intros Hpos. rewrite pretty_N_go_step by done. apply pretty_N_go_append.
Qed.

Lemma digits_value_append (acc : N) (t s : string) :
  digits_value acc (t +:+ s)
  = match digits_value acc t with
    | Some v => digits_value v s
    | None => None
    end.
Proof.
  revert acc. induction t as [|c t IH]; intros acc; [done |].
  change (String c t +:+ s) with (String c (t +:+ s)). simpl.
  destruct (Ascii.is_nat c); [apply IH | done].
Qed.

Lemma is_nat_pretty_N_char (d : N) :
  (d < 10)%N -> Ascii.is_nat (pretty_N_char d) = Some (N.to_nat d).
Proof.
  intros Hd.
  assert (d = 0 \/ d = 1 \/ d = 2 \/ d = 3 \/ d = 4 \/ d = 5 \/ d = 6
          \/ d = 7 \/ d = 8 \/ d = 9)%N as Hcases by lia.
  by repeat (destruct Hcases as [-> | Hcases]; [done |]); subst.
Qed.

Lemma digits_value_pretty_N_go (x : N) :
  digits_value 0 (pretty_N_go x EmptyString) = Some x.
Proof.
  induction (N.lt_wf_0 x) as [x _ IH].
  assert (x = 0 \/ 0 < x)%N as [-> | Hpos] by lia; [done |].
  rewrite pretty_N_go_last, digits_value_append by done.
  rewrite IH by (by apply N.div_lt). simpl.
  rewrite is_nat_pretty_N_char by (by apply N.mod_lt).
  f_equal. rewrite N2Nat.id. symmetry.
  rewrite (N.div_mod x 10) at 1 by done. lia.
Qed.

(** A positive number is written with a first digit from 1 to 9. *)
Lemma pretty_N_go_first (x : N) :
  (0 < x)%N ->
  exists d t, (0 < d < 10)%N
              /\ pretty_N_go x EmptyString = String (pretty_N_char d) t.
Proof.
  induction (N.lt_wf_0 x) as [x _ IH]. intros Hpos.
  rewrite pretty_N_go_last by done.
  destruct (N.eq_0_gt_0_cases (x `div` 10)) as [Hzero | Hmore].
  - rewrite Hzero, pretty_N_go_0. exists (x `mod` 10)%N, EmptyString.
    split; [| done].
    pose proof (N.div_mod x 10 ltac:(done)).
    pose proof (N.mod_lt x 10 ltac:(done)). lia.
  - destruct (IH (x `div` 10)%N) as (d & t & Hd & ->);
      [by apply N.div_lt | done |].
    by exists d, (t +:+ String (pretty_N_char (x `mod` 10)) EmptyString).
Qed.

Lemma length_append (s t : string) :
  String.length (s +:+ t) = String.length s + String.length t.
Proof.
  induction s as [|c s IH]; [done |].
  change (S (String.length (s +:+ t)) = S (String.length s + String.length t)).
  by rewrite IH.
Qed.

(** At most [k] digits are written exactly for the numbers below [10 ^ k]. *)
Lemma length_pretty_N_go (k : nat) (x : N) :
  String.length (pretty_N_go x EmptyString) <= k <-> (x < 10 ^ N.of_nat k)%N.
Proof.
  revert x. induction k as [|k IH]; intros x.
  - assert (x = 0 \/ 0 < x)%N as [-> | Hpos] by lia.
    + rewrite pretty_N_go_0. simpl. split; [lia | intros; simpl; lia].
    + rewrite pretty_N_go_last, length_append by done. simpl.
      change (10 ^ 0)%N with 1%N. lia.
  - assert (x = 0 \/ 0 < x)%N as [-> | Hpos] by lia.
    + rewrite pretty_N_go_0. simpl. split; [| lia].
      intros _. apply N.neq_0_lt_0. apply N.pow_nonzero. lia.
    + rewrite pretty_N_go_last, length_append by done. simpl.
      rewrite Nat2N.inj_succ, N.pow_succ_r'.
      trans (String.length (pretty_N_go (x `div` 10) EmptyString) <= k);
        [lia |].
      rewrite IH. generalize (10 ^ N.of_nat k)%N. intros q.
      pose proof (N.div_mod x 10 ltac:(done)) as Hdm.
      pose proof (N.mod_lt x 10 ltac:(done)) as Hm.
      revert Hdm Hm. generalize (x `div` 10)%N (x `mod` 10)%N. lia.
Qed.

Lemma pretty_pos_unfold (p : positive) :
  pretty (Z.pos p) = pretty_N_go (N.pos p) EmptyString.
Proof. reflexivity. Qed.

Lemma pretty_neg_unfold (p : positive) :
  pretty (Z.neg p) = String "-" (pretty_N_go (N.pos p) EmptyString).
Proof. reflexivity. Qed.

(** Reading back what [str] wrote gives the integer written. *)
Lemma int_of_decimal_pretty (n : Z) : int_of_decimal (pretty n) = Some n.
Proof.
  destruct n as [|p|p]; [done | |].
  - rewrite pretty_pos_unfold.
    destruct (pretty_N_go_first (N.pos p)) as (d & t & Hd & E); [done |].
    pose proof (digits_value_pretty_N_go (N.pos p)) as Hvalue.
    rewrite E in Hvalue |- *. unfold int_of_decimal.
    assert (Ascii.eqb (pretty_N_char d) "-" = false) as ->.
    { assert (d = 1 \/ d = 2 \/ d = 3 \/ d = 4 \/ d = 5 \/ d = 6
              \/ d = 7 \/ d = 8 \/ d = 9)%N as Hcases by lia.
      by repeat (destruct Hcases as [-> | Hcases]; [done |]); subst. }
    by rewrite Hvalue.
  - rewrite pretty_neg_unfold.
    destruct (pretty_N_go_first (N.pos p)) as (d & t & Hd & E); [done |].
    pose proof (digits_value_pretty_N_go (N.pos p)) as Hvalue.
    rewrite E in Hvalue |- *. unfold int_of_decimal.
    change (Ascii.eqb "-" "-") with true. cbv iota. by rewrite Hvalue.
Qed.

(** What [str] writes has no leading zero and no negative zero. *)
Lemma canonical_decimal_pretty (n : Z) : canonical_decimal (pretty n) = true.
Proof.
  destruct n as [|p|p]; [done | |].
  - rewrite pretty_pos_unfold.
    destruct (pretty_N_go_first (N.pos p)) as (d & t & Hd & ->); [done |].
    assert (d = 1 \/ d = 2 \/ d = 3 \/ d = 4 \/ d = 5 \/ d = 6
            \/ d = 7 \/ d = 8 \/ d = 9)%N as Hcases by lia.
    by repeat (destruct Hcases as [-> | Hcases]; [done |]); subst.
  - rewrite pretty_neg_unfold.
    destruct (pretty_N_go_first (N.pos p)) as (d & t & Hd & ->); [done |].
    assert (d = 1 \/ d = 2 \/ d = 3 \/ d = 4 \/ d = 5 \/ d = 6
            \/ d = 7 \/ d = 8 \/ d = 9)%N as Hcases by lia.
    by repeat (destruct Hcases as [-> | Hcases]; [done |]); subst.
Qed.

(** With at least one digit allowed, the numbers of at most [k] digits are
    those below [10 ^ k] in absolute value. *)
Lemma decimal_digits_le (k : nat) (n : Z) :
  1 <= k -> decimal_digits n <= k <-> (Z.abs n < 10 ^ Z.of_nat k)%Z.
Proof.
  intros Hk. unfold decimal_digits.
  destruct (Z.abs n) as [|p|p] eqn:Habs; [| | lia].
  - change (String.length (pretty 0%Z)) with 1. split; [| lia].
    intros _. apply Z.pow_pos_nonneg; lia.
  - rewrite pretty_pos_unfold, length_pretty_N_go.
    rewrite N2Z.inj_lt, N2Z.inj_pow, nat_N_Z. done.
Qed.

Lemma py_str_int_cases (limit : nat) (n : Z) :
  py_str_int limit n = None \/ py_str_int limit n = Some (pretty n).
Proof. unfold py_str_int. destruct (_ || _); auto. Qed.

Lemma py_str_int_convertible (limit : nat) (n : Z) :
  str_convertible limit n -> py_str_int limit n = Some (pretty n).
Proof.
  unfold py_str_int. intros [-> | Hlt]; [done |].
  destruct limit as [|k]; [done |].
  apply (decimal_digits_le (S k)) in Hlt; [| lia].
  apply Nat.leb_le in Hlt. rewrite Hlt. by rewrite orb_true_r.
Qed.

Lemma py_str_int_refused (limit : nat) (n : Z) :
  limit <> 0 -> (10 ^ Z.of_nat limit <= Z.abs n)%Z ->
  py_str_int limit n = None.
Proof.
  intros Hlimit Hbig. unfold py_str_int.
  destruct (Nat.eqb_spec limit 0) as [| _]; [done |].
  destruct (Nat.leb_spec (decimal_digits n) limit) as [Hle |]; [| done].
  apply decimal_digits_le in Hle; lia.
Qed.

Lemma enable_readahead_run host script w :
  enable_iorapd_readahead host script w
  = (Some (fst (respond host w (ShellFunc script "iorapd_readahead_enable" []))),
     log_call (ShellFunc script "iorapd_readahead_enable" []) w).
Proof. reflexivity. Qed.

Lemma disable_readahead_run host script w :
  disable_iorapd_readahead host script w
  = (Some (fst (respond host w (ShellFunc script "iorapd_readahead_disable" []))),
     log_call (ShellFunc script "iorapd_readahead_disable" []) w).
Proof. reflexivity. Qed.

(** The whole control flow of [wait_for_iorapd_finish]: the variable is set
    first, then the timeout is converted, and only then the call is made. *)
Lemma wait_for_finish_run host script limit package activity timeout debug ts
  w :
  wait_for_iorapd_finish host script limit package activity timeout debug ts w
  = let w1 := if debug then verbose_world w else w in
    match py_str_int limit timeout with
    | Some timeout_str =>
        let c := ShellFunc script "iorapd_readahead_wait_until_finished"
                           [package; activity; ts; timeout_str] in
        (Some (fst (respond host w1 c)), log_call c w1)
    | None => (None, w1)
    end.
Proof.
  unfold wait_for_iorapd_finish, bind, lift_option.
  by destruct debug, (py_str_int limit timeout).
Qed.

(** It either raises before any call, or makes the one call. *)
Lemma wait_for_finish_cases host script limit package activity timeout
  (debug : bool) ts (w : World) :
  let w1 := if debug then verbose_world w else w in
  wait_for_iorapd_finish host script limit package activity timeout debug ts w
  = (None, w1)
  \/ wait_for_iorapd_finish host script limit package activity timeout debug
                            ts w
     = (Some (fst (respond host w1
                     (wait_call script package activity timeout ts))),
        log_call (wait_call script package activity timeout ts) w1).
Proof.
  rewrite wait_for_finish_run. cbn zeta.
  destruct (py_str_int_cases limit timeout) as [-> | ->]; auto.
Qed.

Lemma wait_for_finish_run_convertible host script limit package activity
  timeout debug ts w :
  str_convertible limit timeout ->
  wait_for_iorapd_finish host script limit package activity timeout debug ts w
  = (Some (fst (respond host (if debug then verbose_world w else w)
                  (wait_call script package activity timeout ts))),
     log_call (wait_call script package activity timeout ts)
              (if debug then verbose_world w else w)).
Proof.
  intros Hfits. rewrite wait_for_finish_run. cbn zeta.
  by rewrite (py_str_int_convertible _ _ Hfits).
Qed.

Lemma wait_for_finish_run_refused host script limit package activity
  timeout debug ts w :
  limit <> 0 -> (10 ^ Z.of_nat limit <= Z.abs timeout)%Z ->
  wait_for_iorapd_finish host script limit package activity timeout debug ts w
  = (None, if debug then verbose_world w else w).
Proof.
  intros Hlimit Hbig. rewrite wait_for_finish_run. cbn zeta.
  by rewrite (py_str_int_refused _ _ Hlimit Hbig).
Qed.

(** A call logged from a world that has made no call since [w]. *)
Lemma new_invocations_log_call_from c w w1 :
  invocations w1 = invocations w ->
  new_invocations w (log_call c w1) = [mkInvocation c (environ w1)].
Proof.
  intros E. unfold new_invocations, log_call; simpl.
  rewrite <- E. apply drop_app_length.
Qed.

Lemma new_calls_log_call c w : new_calls w (log_call c w) = [c].
Proof. unfold new_calls. by rewrite new_invocations_log_call. Qed.

Lemma new_calls_log_call2 c1 c2 w :
  new_calls w (log_call c2 (log_call c1 w)) = [c1; c2].
Proof. unfold new_calls. by rewrite new_invocations_log_call2. Qed.

(** ** The readahead session controller: function names *)




(** ** The remote artifact installer *)

(** C3: when the local file does not exist, the installer returns [False],
    delegates no call at all (no directory creation, no push), and prints
    one line, [Error: File <path> does not exist], which mentions the missing
    path. *)
Theorem install_missing_local_file (host : Host)
  (package activity input_file : string) (w : World) :
  input_file ∉ local_files w ->
  fst (iorapd_compiler_install_trace_file host package activity input_file w)
  = Some false
  /\ new_calls w
       (snd (iorapd_compiler_install_trace_file host package activity
                                                input_file w))
     = []
  /\ invocations
       (snd (iorapd_compiler_install_trace_file host package activity
                                                input_file w))
     = invocations w
  /\ stdout
       (snd (iorapd_compiler_install_trace_file host package activity
                                                input_file w))
     = stdout w ++ ["Error: File " +:+ input_file +:+ " does not exist"]
  /\ mentions ("Error: File " +:+ input_file +:+ " does not exist") input_file.
Proof.
  intros Hmissing. rewrite install_trace_file_run.
  rewrite bool_decide_eq_false_2 by done. cbn [fst snd].
  split_and!; try done.
  - unfold new_calls. change (new_invocations w _) with (new_invocations w w).
    by rewrite new_invocations_refl.
  - exists "Error: File ", " does not exist". reflexivity.
Qed.

Lemma install_missing_local_file_witness :
  ("/tmp/trace.pb" ∉ local_files world_empty)
  /\ fst (iorapd_compiler_install_trace_file host_all_pass "pkg" "act"
                                             "/tmp/trace.pb" world_empty)
     = Some false
  /\ stdout
       (snd (iorapd_compiler_install_trace_file host_all_pass "pkg" "act"
                                                "/tmp/trace.pb" world_empty))
     = ["Error: File /tmp/trace.pb does not exist"].
Proof.
  assert (Hmissing : "/tmp/trace.pb" ∉ local_files world_empty)
    by apply not_elem_of_empty.
  destruct (install_missing_local_file host_all_pass "pkg" "act"
              "/tmp/trace.pb" world_empty Hmissing) as (Hr & _ & _ & Hout & _).
  split_and!; [exact Hmissing | exact Hr | exact Hout].
Defined.

(** C4: when the local file exists and the remote directory creation
    reports failure, the installer returns [False]; the only call it
    delegates is that [mkdir -p], and the number of pushes is zero. *)
Theorem install_mkdir_failure (host : Host)
  (package activity input_file : string) (w : World) :
  input_file ∈ local_files w ->
  fst (respond host w (AdbShellCommand (mkdir_command package activity)))
  = false ->
  fst (iorapd_compiler_install_trace_file host package activity input_file w)
  = Some false
  /\ new_calls w
       (snd (iorapd_compiler_install_trace_file host package activity
                                                input_file w))
     = [AdbShellCommand (mkdir_command package activity)]
  /\ push_count
       (new_calls w
          (snd (iorapd_compiler_install_trace_file host package activity
                                                   input_file w)))
     = 0.
Proof.
  intros Hfile Hmkdir. rewrite install_trace_file_run.
  rewrite bool_decide_eq_true_2 by done. cbn zeta. rewrite Hmkdir.
  cbn [fst snd]. rewrite new_calls_log_call. by split_and!.
Qed.

Lemma install_mkdir_failure_witness :
  "/tmp/trace.pb" ∈ local_files world_with_trace
  /\ fst (iorapd_compiler_install_trace_file host_adb_shell_fails "pkg" "act"
                                             "/tmp/trace.pb" world_with_trace)
     = Some false
  /\ push_count
       (new_calls world_with_trace
          (snd (iorapd_compiler_install_trace_file host_adb_shell_fails "pkg"
                  "act" "/tmp/trace.pb" world_with_trace)))
     = 0.
Proof.
  assert (Hfile : "/tmp/trace.pb" ∈ local_files world_with_trace)
    by (simpl; apply elem_of_singleton_2; reflexivity).
  destruct (install_mkdir_failure host_adb_shell_fails "pkg" "act"
              "/tmp/trace.pb" world_with_trace Hfile eq_refl)
    as (Hr & _ & Hcount).
  split_and!; [exact Hfile | exact Hr | exact Hcount].
Defined.

(** C5: when the local file exists and the remote directory creation
    succeeds, the installer pushes once and returns exactly the success flag
    of that push, whatever it is. *)
Theorem install_returns_push_result (host : Host)
  (package activity input_file : string) (w : World) :
  input_file ∈ local_files w ->
  fst (respond host w (AdbShellCommand (mkdir_command package activity)))
  = true ->
  fst (iorapd_compiler_install_trace_file host package activity input_file w)
  = Some (fst (respond host
                 (log_call (AdbShellCommand (mkdir_command package activity)) w)
                 (ShellCommand (push_command package activity input_file))))
  /\ new_calls w
       (snd (iorapd_compiler_install_trace_file host package activity
                                                input_file w))
     = [AdbShellCommand (mkdir_command package activity);
        ShellCommand (push_command package activity input_file)]
  /\ push_count
       (new_calls w
          (snd (iorapd_compiler_install_trace_file host package activity
                                                   input_file w)))
     = 1.
Proof.
  intros Hfile Hmkdir. rewrite install_trace_file_run.
  rewrite bool_decide_eq_true_2 by done. cbn zeta. rewrite Hmkdir.
  cbn [fst snd]. rewrite new_calls_log_call2. by split_and!.
Qed.

Lemma install_returns_push_result_witness :
  "/tmp/trace.pb" ∈ local_files world_with_trace
  /\ fst (iorapd_compiler_install_trace_file host_push_fails "pkg" "act"
                                             "/tmp/trace.pb" world_with_trace)
     = Some false
  /\ fst (iorapd_compiler_install_trace_file host_all_pass "pkg" "act"
                                             "/tmp/trace.pb" world_with_trace)
     = Some true.
Proof.
  assert (Hfile : "/tmp/trace.pb" ∈ local_files world_with_trace)
    by (simpl; apply elem_of_singleton_2; reflexivity).
  destruct (install_returns_push_result host_push_fails "pkg" "act"
              "/tmp/trace.pb" world_with_trace Hfile eq_refl) as (Hfail & _).
  destruct (install_returns_push_result host_all_pass "pkg" "act"
              "/tmp/trace.pb" world_with_trace Hfile eq_refl) as (Hpass & _).
  split_and!; [exact Hfile | exact Hfail | exact Hpass].
Defined.

(** ** The readahead session controller: waiting *)

(** No call was made between two worlds with the same log. *)
Lemma new_invocations_same_log (w w1 : World) :
  invocations w1 = invocations w -> new_invocations w w1 = [].
Proof.
  intros E. unfold new_invocations. rewrite E. apply drop_all.
Qed.

Lemma invocations_debug_world (debug : bool) (w : World) :
  invocations (if debug then verbose_world w else w) = invocations w.
Proof. by destruct debug. Qed.

(** What a wait adds to the log: nothing when it raised, else its call. *)
Lemma wait_for_finish_new_invocations host script limit package activity
  timeout (debug : bool) ts (w : World) :
  let w1 := if debug then verbose_world w else w in
  new_invocations w
    (snd (wait_for_iorapd_finish host script limit package activity timeout
                                 debug ts w))
  = match py_str_int limit timeout with
    | Some _ =>
        [mkInvocation (wait_call script package activity timeout ts)
                      (environ w1)]
    | None => []
    end.
Proof.
  cbn zeta. rewrite wait_for_finish_run. cbn zeta.
  destruct (py_str_int_cases limit timeout) as [-> | ->]; cbn [snd].
  - apply new_invocations_same_log, invocations_debug_world.
  - apply new_invocations_log_call_from, invocations_debug_world.
Qed.

(** C6: whatever the package, activity, timeout, debug flag and logcat
    timestamp, the wait delegates no call but the one whose positional
    arguments are, in this order, the package, the activity, the logcat
    timestamp and the timeout as a string: the canonical decimal numeral that
    reads back as the timeout. It delegates that call for every timeout that
    [str] converts; for a timeout of 30 the string is [30]. *)
Theorem wait_for_finish_argument_order (host : Host) (script : string)
  (limit : nat) (package activity : string) (timeout : Z) (debug : bool)
  (logcat_timestamp : string) (w : World) :
  (exists timeout_str : string,
     int_of_decimal timeout_str = Some timeout
     /\ canonical_decimal timeout_str = true
     /\ new_calls w
          (snd (wait_for_iorapd_finish host script limit package activity
                                       timeout debug logcat_timestamp w))
        `prefix_of`
        [ShellFunc script "iorapd_readahead_wait_until_finished"
                   [package; activity; logcat_timestamp; timeout_str]]
     /\ (str_convertible limit timeout ->
         new_calls w
           (snd (wait_for_iorapd_finish host script limit package activity
                                        timeout debug logcat_timestamp w))
         = [ShellFunc script "iorapd_readahead_wait_until_finished"
                      [package; activity; logcat_timestamp; timeout_str]]))
  /\ new_calls world_empty
       (snd (wait_for_iorapd_finish host script default_int_max_str_digits
                                    "com.example.app" "MainActivity" 30 debug
                                    "10-31 12:00:00.000" world_empty))
     = [ShellFunc script "iorapd_readahead_wait_until_finished"
                  ["com.example.app"; "MainActivity"; "10-31 12:00:00.000";
                   "30"]].
Proof.
  split.
  - exists (pretty timeout).
    split; [apply int_of_decimal_pretty |].
    split; [apply canonical_decimal_pretty |].
    unfold new_calls. rewrite wait_for_finish_new_invocations. split.
    + destruct (py_str_int limit timeout); [done | apply prefix_nil].
    + intros Hfits. by rewrite (py_str_int_convertible _ _ Hfits).
  - unfold new_calls. rewrite wait_for_finish_new_invocations.
    by destruct debug.
Qed.

Lemma wait_for_finish_argument_order_witness :
  str_convertible default_int_max_str_digits 30
  /\ exists timeout_str : string,
       int_of_decimal timeout_str = Some 30%Z
       /\ new_calls world_empty
            (snd (wait_for_iorapd_finish host_all_pass sample_script
                    default_int_max_str_digits "com.example.app"
                    "MainActivity" 30 true "10-31 12:00:00.000"
                    world_empty))
          = [ShellFunc sample_script "iorapd_readahead_wait_until_finished"
                       ["com.example.app"; "MainActivity";
                        "10-31 12:00:00.000"; timeout_str]].
Proof.
  assert (Hfits : str_convertible default_int_max_str_digits 30)
    by (right; vm_compute; reflexivity).
  split; [exact Hfits |].
  destruct (wait_for_finish_argument_order host_all_pass sample_script
              default_int_max_str_digits "com.example.app" "MainActivity" 30
              true "10-31 12:00:00.000" world_empty)
    as [(timeout_str & Hread & _ & _ & Hcall) _].
  exists timeout_str. split; [exact Hread | exact (Hcall Hfits)].
Defined.

(** C7: with [debug] true, every invocation the wait makes is made in an
    environment that already has [verbose] set to [y], and the environment
    the wait leaves is the old one with [verbose] set to [y]: nothing is
    undone. For every timeout that [str] converts, the wait function is
    invoked once, in that environment, and the host answers there. *)
Theorem wait_for_finish_debug_sets_verbose (host : Host) (script : string)
  (limit : nat) (package activity : string) (timeout : Z)
  (logcat_timestamp : string) (w : World) :
  Forall (fun inv => inv_environ inv !! "verbose" = Some "y")
    (new_invocations w
       (snd (wait_for_iorapd_finish host script limit package activity timeout
                                    true logcat_timestamp w)))
  /\ new_invocations w
       (snd (wait_for_iorapd_finish host script limit package activity timeout
                                    true logcat_timestamp w))
     `prefix_of`
     [mkInvocation
        (wait_call script package activity timeout logcat_timestamp)
        (<["verbose" := "y"]> (environ w))]
  /\ environ
       (snd (wait_for_iorapd_finish host script limit package activity timeout
                                    true logcat_timestamp w))
     = <["verbose" := "y"]> (environ w)
  /\ environ
       (snd (wait_for_iorapd_finish host script limit package activity timeout
                                    true logcat_timestamp w))
     !! "verbose"
     = Some "y"
  /\ (str_convertible limit timeout ->
      new_invocations w
        (snd (wait_for_iorapd_finish host script limit package activity
                                     timeout true logcat_timestamp w))
      = [mkInvocation
           (wait_call script package activity timeout logcat_timestamp)
           (<["verbose" := "y"]> (environ w))]
      /\ fst (wait_for_iorapd_finish host script limit package activity
                                     timeout true logcat_timestamp w)
         = Some (fst (respond host (verbose_world w)
                        (wait_call script package activity timeout
                                   logcat_timestamp)))).
Proof.
  rewrite wait_for_finish_new_invocations. cbn zeta.
  assert (Henv :
    environ
      (snd (wait_for_iorapd_finish host script limit package activity timeout
                                   true logcat_timestamp w))
    = <["verbose" := "y"]> (environ w)).
  { by destruct (wait_for_finish_cases host script limit package activity
                   timeout true logcat_timestamp w) as [-> | ->]. }
  rewrite Henv. split_and!.
  - destruct (py_str_int limit timeout); [| by constructor].
    repeat constructor. simpl. apply lookup_insert_eq.
  - destruct (py_str_int limit timeout); [done | apply prefix_nil].
  - done.
  - apply lookup_insert_eq.
  - intros Hfits. rewrite (py_str_int_convertible _ _ Hfits).
    by rewrite wait_for_finish_run_convertible.
Qed.

Lemma wait_for_finish_debug_sets_verbose_witness :
  str_convertible default_int_max_str_digits 30
  /\ inv_environ <$>
       new_invocations world_empty
         (snd (wait_for_iorapd_finish host_all_pass sample_script
                 default_int_max_str_digits "pkg" "act" 30 true
                 "10-31 12:00:00.000" world_empty))
     = [<["verbose" := "y"]> (environ world_empty)].
Proof.
  assert (Hfits : str_convertible default_int_max_str_digits 30)
    by (right; vm_compute; reflexivity).
  split; [exact Hfits |].
  destruct (wait_for_finish_debug_sets_verbose host_all_pass sample_script
              default_int_max_str_digits "pkg" "act" 30 "10-31 12:00:00.000"
              world_empty) as (_ & _ & _ & _ & Hcall).
  destruct (Hcall Hfits) as [-> _]. reflexivity.
Defined.

(** C10: with [debug] false, the process environment (the [verbose] key
    with it), the output and the local files are left as they were, and the
    log grows by no more than the one call to the wait function. For every
    timeout that [str] converts the wait is that single call and nothing
    else: the host answers in the unchanged world. *)
Theorem wait_for_finish_no_debug_frame (host : Host) (script : string)
  (limit : nat) (package activity : string) (timeout : Z)
  (logcat_timestamp : string) (w : World) :
  environ
    (snd (wait_for_iorapd_finish host script limit package activity timeout
                                 false logcat_timestamp w))
  = environ w
  /\ environ
       (snd (wait_for_iorapd_finish host script limit package activity timeout
                                    false logcat_timestamp w))
     !! "verbose"
     = environ w !! "verbose"
  /\ stdout
       (snd (wait_for_iorapd_finish host script limit package activity timeout
                                    false logcat_timestamp w))
     = stdout w
  /\ local_files
       (snd (wait_for_iorapd_finish host script limit package activity timeout
                                    false logcat_timestamp w))
     = local_files w
  /\ new_invocations w
       (snd (wait_for_iorapd_finish host script limit package activity timeout
                                    false logcat_timestamp w))
     `prefix_of`
     [mkInvocation
        (wait_call script package activity timeout logcat_timestamp)
        (environ w)]
  /\ (str_convertible limit timeout ->
      wait_for_iorapd_finish host script limit package activity timeout false
                             logcat_timestamp w
      = (Some (fst (respond host w
                      (wait_call script package activity timeout
                                 logcat_timestamp))),
         log_call (wait_call script package activity timeout logcat_timestamp)
                  w)
      /\ new_invocations w
           (snd (wait_for_iorapd_finish host script limit package activity
                                        timeout false logcat_timestamp w))
         = [mkInvocation
              (wait_call script package activity timeout logcat_timestamp)
              (environ w)]).
Proof.
  rewrite wait_for_finish_new_invocations. cbn zeta.
  split_and!.
  - by destruct (wait_for_finish_cases host script limit package activity
                   timeout false logcat_timestamp w) as [-> | ->].
  - by destruct (wait_for_finish_cases host script limit package activity
                   timeout false logcat_timestamp w) as [-> | ->].
  - by destruct (wait_for_finish_cases host script limit package activity
                   timeout false logcat_timestamp w) as [-> | ->].
  - by destruct (wait_for_finish_cases host script limit package activity
                   timeout false logcat_timestamp w) as [-> | ->].
  - destruct (py_str_int limit timeout); [done | apply prefix_nil].
  - intros Hfits. rewrite (py_str_int_convertible _ _ Hfits).
    by rewrite wait_for_finish_run_convertible.
Qed.

Lemma wait_for_finish_no_debug_frame_witness :
  str_convertible default_int_max_str_digits 30
  /\ new_invocations world_empty
       (snd (wait_for_iorapd_finish host_all_pass sample_script
               default_int_max_str_digits "pkg" "act" 30 false
               "10-31 12:00:00.000" world_empty))
     = [mkInvocation
          (wait_call sample_script "pkg" "act" 30 "10-31 12:00:00.000")
          (environ world_empty)].
Proof.
  assert (Hfits : str_convertible default_int_max_str_digits 30)
    by (right; vm_compute; reflexivity).
  split; [exact Hfits |].
  destruct (wait_for_finish_no_debug_frame host_all_pass sample_script
              default_int_max_str_digits "pkg" "act" 30 "10-31 12:00:00.000"
              world_empty) as (_ & _ & _ & _ & _ & Hcall).
  exact (proj2 (Hcall Hfits)).
Defined.

(** ** The readahead session controller: enabling and disabling *)

(** C9: enabling and disabling each delegate exactly one call, a shell
    function with an empty argument list, and return the success flag of the
    host's answer as it is; the captured output is dropped; nothing else in
    the world changes. *)
Theorem enable_disable_single_delegation (host : Host) (script : string)
  (w : World) :
  (enable_iorapd_readahead host script w
   = (Some (fst (respond host w
                   (ShellFunc script "iorapd_readahead_enable" []))),
      log_call (ShellFunc script "iorapd_readahead_enable" []) w)
   /\ new_calls w (snd (enable_iorapd_readahead host script w))
      = [ShellFunc script "iorapd_readahead_enable" []])
  /\ (disable_iorapd_readahead host script w
      = (Some (fst (respond host w
                      (ShellFunc script "iorapd_readahead_disable" []))),
         log_call (ShellFunc script "iorapd_readahead_disable" []) w)
      /\ new_calls w (snd (disable_iorapd_readahead host script w))
         = [ShellFunc script "iorapd_readahead_disable" []]).
Proof.
  rewrite enable_readahead_run, disable_readahead_run. cbn [snd].
  rewrite !new_calls_log_call. by split_and!.
Qed.

(** ** More about the installer *)

(** X1: the installer never raises, and it reports success exactly when the
    local file exists, the remote [mkdir -p] passed and the push passed. *)
Theorem install_result_characterised (host : Host)
  (package activity input_file : string) (w : World) :
  fst (iorapd_compiler_install_trace_file host package activity input_file w)
  = Some (bool_decide (input_file ∈ local_files w)
          && fst (respond host w
                    (AdbShellCommand (mkdir_command package activity)))
          && fst (respond host
                    (log_call (AdbShellCommand (mkdir_command package activity))
                              w)
                    (ShellCommand (push_command package activity input_file)))).
Proof.
  rewrite install_trace_file_run.
  destruct (bool_decide (input_file ∈ local_files w)); [| done].
  cbn zeta. by destruct (fst (respond host w _)).
Qed.

(** X2: whatever the host answers, the calls the installer delegates are an
    initial part of [mkdir -p] followed by [adb push]: at most two calls,
    never a push without the [mkdir -p] before it, and never a shell
    function. *)
Theorem install_calls_prefix (host : Host)
  (package activity input_file : string) (w : World) :
  new_calls w
    (snd (iorapd_compiler_install_trace_file host package activity
                                             input_file w))
  `prefix_of` [AdbShellCommand (mkdir_command package activity);
               ShellCommand (push_command package activity input_file)]
  /\ shell_func_names
       (new_calls w
          (snd (iorapd_compiler_install_trace_file host package activity
                                                   input_file w)))
     = [].
Proof.
  rewrite install_trace_file_run.
  destruct (bool_decide (input_file ∈ local_files w)); cbn zeta.
  - destruct (fst (respond host w _)); cbn [snd].
    + rewrite new_calls_log_call2. split; [done | reflexivity].
    + rewrite new_calls_log_call. split; [| reflexivity].
      by eexists [_].
  - cbn [snd]. unfold new_calls.
    change (new_invocations w _) with (new_invocations w w).
    rewrite new_invocations_refl. split; [| reflexivity].
    apply prefix_nil.
Qed.

(** X3: when the installer reports success, the local file existed, both
    remote steps passed, exactly the [mkdir -p] and the push were delegated,
    in this order, and nothing was printed. *)
Theorem install_success_postcondition (host : Host)
  (package activity input_file : string) (w : World) :
  fst (iorapd_compiler_install_trace_file host package activity input_file w)
  = Some true ->
  input_file ∈ local_files w
  /\ fst (respond host w (AdbShellCommand (mkdir_command package activity)))
     = true
  /\ fst (respond host
            (log_call (AdbShellCommand (mkdir_command package activity)) w)
            (ShellCommand (push_command package activity input_file)))
     = true
  /\ new_calls w
       (snd (iorapd_compiler_install_trace_file host package activity
                                                input_file w))
     = [AdbShellCommand (mkdir_command package activity);
        ShellCommand (push_command package activity input_file)]
  /\ stdout
       (snd (iorapd_compiler_install_trace_file host package activity
                                                input_file w))
     = stdout w.
Proof.
  rewrite install_trace_file_run.
  destruct (bool_decide (input_file ∈ local_files w)) eqn:Hfile;
    cbn zeta; [| by intros [=]].
  apply bool_decide_eq_true_1 in Hfile.
  destruct (fst (respond host w _)) eqn:Hmkdir; cbn [fst snd];
    [| by intros [=]].
  intros [= Hpush]. rewrite new_calls_log_call2. by split_and!.
Qed.

Lemma install_success_postcondition_witness :
  "/tmp/trace.pb" ∈ local_files world_with_trace
  /\ new_calls world_with_trace
       (snd (iorapd_compiler_install_trace_file host_all_pass "pkg" "act"
                                                "/tmp/trace.pb"
                                                world_with_trace))
     = [AdbShellCommand (mkdir_command "pkg" "act");
        ShellCommand (push_command "pkg" "act" "/tmp/trace.pb")].
Proof.
  assert (Hrun : fst (iorapd_compiler_install_trace_file host_all_pass "pkg"
                        "act" "/tmp/trace.pb" world_with_trace) = Some true)
    by (vm_compute; reflexivity).
  destruct (install_success_postcondition host_all_pass "pkg" "act"
              "/tmp/trace.pb" world_with_trace Hrun)
    as (Hfile & _ & _ & Hcalls & _).
  split; [exact Hfile | exact Hcalls].
Defined.

(** X4: the installer never touches the process environment or the local
    files, and it prints only for a missing local file: a failed [mkdir -p]
    and a failed push are silent. *)
Theorem install_frame (host : Host)
  (package activity input_file : string) (w : World) :
  environ
    (snd (iorapd_compiler_install_trace_file host package activity
                                             input_file w))
  = environ w
  /\ local_files
       (snd (iorapd_compiler_install_trace_file host package activity
                                                input_file w))
     = local_files w
  /\ stdout
       (snd (iorapd_compiler_install_trace_file host package activity
                                                input_file w))
     = if bool_decide (input_file ∈ local_files w) then stdout w
       else stdout w ++ ["Error: File " +:+ input_file +:+ " does not exist"].
Proof.
  rewrite install_trace_file_run.
  destruct (bool_decide (input_file ∈ local_files w)); cbn zeta; [| done].
  by destruct (fst (respond host w _)).
Qed.

(** ** More about the path deriver *)

Lemma list_ascii_of_append (s1 s2 : string) :
  list_ascii_of_string (s1 +:+ s2)
  = list_ascii_of_string s1 ++ list_ascii_of_string s2.
Proof.
  induction s1 as [|c s1 IH]; [done |].
  change (c :: list_ascii_of_string (s1 +:+ s2)
          = c :: (list_ascii_of_string s1 ++ list_ascii_of_string s2)).
  by rewrite IH.
Qed.

Lemma list_ascii_of_string_inj (s1 s2 : string) :
  list_ascii_of_string s1 = list_ascii_of_string s2 -> s1 = s2.
Proof.
  intros E. rewrite <- (string_of_list_ascii_of_string s1),
    <- (string_of_list_ascii_of_string s2). by rewrite E.
Qed.

(** Strings cancel on the right as well as on the left. *)
Lemma append_cancel_r (s1 s2 t : string) : s1 +:+ t = s2 +:+ t -> s1 = s2.
Proof.
  intros E. apply list_ascii_of_string_inj.
  apply (f_equal list_ascii_of_string) in E.
  rewrite !list_ascii_of_append in E. by apply (inj (.++ _)) in E.
Qed.

Lemma append_cancel_l (s t1 t2 : string) : s +:+ t1 = s +:+ t2 -> t1 = t2.
Proof. apply (inj (String.append s)). Qed.

(** X5: the package and the activity are not escaped: when the separator [%2F]
    occurs in them, two different references derive the same path. Moving a
    segment from the end of the package to the front of the activity does
    not change the result. *)
Theorem path_to_data_file_collision (package middle activity suffix : string)
  (w : World) :
  fst (_iorapd_path_to_data_file (package +:+ "%2F" +:+ middle) activity
                                 suffix w)
  = fst (_iorapd_path_to_data_file package (middle +:+ "%2F" +:+ activity)
                                   suffix w)
  /\ package +:+ "%2F" +:+ middle <> package
  /\ middle +:+ "%2F" +:+ activity <> activity.
Proof.
  rewrite !path_to_data_file_run. cbn [fst]. split_and!.
  - do 2 f_equal. by rewrite !append_assoc.
  - intros E. rewrite <- (append_empty_r package) in E at 2.
    by apply append_cancel_l in E.
  - intros E. rewrite <- append_assoc in E.
    change activity with (EmptyString +:+ activity) in E at 2.
    apply append_cancel_r in E. by destruct middle.
Qed.

(** X6: with the same suffix, two references that agree on the package or on
    the activity derive the same path only if they are the same reference. *)
Theorem path_to_data_file_injective (package1 activity1 package2 activity2
  suffix : string) (w : World) :
  package1 = package2 \/ activity1 = activity2 ->
  fst (_iorapd_path_to_data_file package1 activity1 suffix w)
  = fst (_iorapd_path_to_data_file package2 activity2 suffix w) ->
  package1 = package2 /\ activity1 = activity2.
Proof.
  rewrite !path_to_data_file_run. cbn [fst]. intros Hsame [= E].
  apply append_cancel_l in E.
  destruct Hsame as [-> | ->].
  - split; [done |].
    by apply append_cancel_l, append_cancel_l, append_cancel_r in E.
  - split; [| done]. by apply append_cancel_r in E.
Qed.

Lemma path_to_data_file_injective_witness :
  ("com.example.app" = "com.example.app" \/ "MainActivity" = "MainActivity")
  /\ fst (_iorapd_path_to_data_file "com.example.app" "MainActivity"
                                    "compiled_trace.pb" world_empty)
     = fst (_iorapd_path_to_data_file "com.example.app" "MainActivity"
                                      "compiled_trace.pb" world_empty)
  /\ "com.example.app" = "com.example.app" /\ "MainActivity" = "MainActivity".
Proof.
  split; [left; reflexivity |]. split; [reflexivity |].
  apply (path_to_data_file_injective "com.example.app" "MainActivity"
           "com.example.app" "MainActivity" "compiled_trace.pb" world_empty);
    [left; reflexivity | reflexivity].
Defined.

(** ** More about the readahead session controller *)

Lemma bind_then {A B} (m : Py A) (k : Py B) w a :
  fst (m w) = Some a -> (m ;;; k) w = k (snd (m w)).
Proof. unfold bind. destruct (m w) as [[x|] w']; simpl; by intros [=]. Qed.

Lemma new_invocations_log_call2_from c1 c2 w w1 :
  invocations w1 = invocations w ->
  new_invocations w (log_call c2 (log_call c1 w1))
  = [mkInvocation c1 (environ w1); mkInvocation c2 (environ w1)].
Proof.
  intros E. unfold new_invocations, log_call; simpl.
  rewrite <- E, <- (assoc_L (++)). apply drop_app_length.
Qed.

(** X7: waiting changes no environment variable other than [verbose], whatever
    the debug flag; it prints nothing and leaves the local files alone. *)
Theorem wait_for_finish_environ_frame (host : Host) (script : string)
  (limit : nat) (package activity : string) (timeout : Z) (debug : bool)
  (logcat_timestamp : string) (w : World) (key : string) :
  key <> "verbose" ->
  environ
    (snd (wait_for_iorapd_finish host script limit package activity timeout
                                 debug logcat_timestamp w))
  !! key
  = environ w !! key
  /\ stdout
       (snd (wait_for_iorapd_finish host script limit package activity timeout
                                    debug logcat_timestamp w))
     = stdout w
  /\ local_files
       (snd (wait_for_iorapd_finish host script limit package activity timeout
                                    debug logcat_timestamp w))
     = local_files w.
Proof.
  intros Hkey.
  destruct (wait_for_finish_cases host script limit package activity timeout
              debug logcat_timestamp w) as [-> | ->]; cbn [snd];
    destruct debug; simpl; split_and!; try done;
    by apply lookup_insert_ne.
Qed.

Lemma wait_for_finish_environ_frame_witness :
  "PATH" <> "verbose"
  /\ environ
       (snd (wait_for_iorapd_finish host_all_pass sample_script
               default_int_max_str_digits "pkg" "act" 30 true
               "10-31 12:00:00.000" world_empty))
     !! "PATH"
     = environ world_empty !! "PATH".
Proof.
  assert (Hkey : "PATH" <> "verbose") by discriminate.
  split; [exact Hkey |].
  apply (wait_for_finish_environ_frame host_all_pass sample_script
           default_int_max_str_digits "pkg" "act" 30 true
           "10-31 12:00:00.000" world_empty "PATH" Hkey).
Defined.

(** X8: the verbose signal outlives the call that set it: after a wait with
    [debug] true, a later wait (with or without [debug]), a later enable and
    a later disable all make their call with [verbose] set to [y], and the
    process environment stays the one the first wait left. The timeouts are
    ones that [str] converts, so that both waits make their call. *)
Theorem verbose_persists_across_calls (host : Host) (script : string)
  (limit : nat) (package activity : string) (timeout : Z)
  (logcat_timestamp : string) (package' activity' : string) (timeout' : Z)
  (debug' : bool) (logcat_timestamp' : string) (w : World) :
  str_convertible limit timeout ->
  str_convertible limit timeout' ->
  (inv_environ <$>
     new_invocations w
       (snd ((wait_for_iorapd_finish host script limit package activity
                                     timeout true logcat_timestamp ;;;
              wait_for_iorapd_finish host script limit package' activity'
                                     timeout' debug' logcat_timestamp') w))
   = [<["verbose" := "y"]> (environ w); <["verbose" := "y"]> (environ w)]
   /\ environ
        (snd ((wait_for_iorapd_finish host script limit package activity
                                      timeout true logcat_timestamp ;;;
               wait_for_iorapd_finish host script limit package' activity'
                                      timeout' debug' logcat_timestamp') w))
      = <["verbose" := "y"]> (environ w))
  /\ (inv_environ <$>
        new_invocations w
          (snd ((wait_for_iorapd_finish host script limit package activity
                                        timeout true logcat_timestamp ;;;
                 enable_iorapd_readahead host script) w))
      = [<["verbose" := "y"]> (environ w); <["verbose" := "y"]> (environ w)]
      /\ environ
           (snd ((wait_for_iorapd_finish host script limit package activity
                                         timeout true logcat_timestamp ;;;
                  enable_iorapd_readahead host script) w))
         = <["verbose" := "y"]> (environ w))
  /\ (inv_environ <$>
        new_invocations w
          (snd ((wait_for_iorapd_finish host script limit package activity
                                        timeout true logcat_timestamp ;;;
                 disable_iorapd_readahead host script) w))
      = [<["verbose" := "y"]> (environ w); <["verbose" := "y"]> (environ w)]
      /\ environ
           (snd ((wait_for_iorapd_finish host script limit package activity
                                         timeout true logcat_timestamp ;;;
                  disable_iorapd_readahead host script) w))
         = <["verbose" := "y"]> (environ w)).
Proof.
  intros Hfits Hfits'.
  assert (Hfirst :
    fst (wait_for_iorapd_finish host script limit package activity timeout
                                true logcat_timestamp w)
    = Some (fst (respond host (verbose_world w)
                   (wait_call script package activity timeout
                              logcat_timestamp))))
    by (by rewrite wait_for_finish_run_convertible).
  rewrite !(bind_then _ _ w _ Hfirst).
  rewrite enable_readahead_run, disable_readahead_run.
  rewrite (wait_for_finish_run_convertible host script limit package' activity')
    by done.
  rewrite wait_for_finish_run_convertible by done. cbn [snd]. split_and!.
  - destruct debug'.
    + assert (Hidem :
        verbose_world
          (log_call (wait_call script package activity timeout
                               logcat_timestamp) (verbose_world w))
        = log_call (wait_call script package activity timeout
                              logcat_timestamp) (verbose_world w)).
      { unfold verbose_world, log_call; simpl. f_equal.
        apply insert_insert_eq. }
      rewrite Hidem.
      by rewrite (new_invocations_log_call2_from _ _ w (verbose_world w)).
    + by rewrite (new_invocations_log_call2_from _ _ w (verbose_world w)).
  - destruct debug'; simpl; [apply insert_insert_eq | done].
  - by rewrite (new_invocations_log_call2_from _ _ w (verbose_world w)).
  - done.
  - by rewrite (new_invocations_log_call2_from _ _ w (verbose_world w)).
  - done.
Qed.

Lemma verbose_persists_across_calls_witness :
  str_convertible default_int_max_str_digits 30
  /\ str_convertible default_int_max_str_digits 60
  /\ inv_environ <$>
       new_invocations world_empty
         (snd ((wait_for_iorapd_finish host_all_pass sample_script
                  default_int_max_str_digits "pkg" "act" 30 true
                  "10-31 12:00:00.000" ;;;
                wait_for_iorapd_finish host_all_pass sample_script
                  default_int_max_str_digits "pkg" "act" 60 false
                  "10-31 12:05:00.000") world_empty))
     = [<["verbose" := "y"]> (environ world_empty);
        <["verbose" := "y"]> (environ world_empty)].
Proof.
  assert (Hfits : str_convertible default_int_max_str_digits 30)
    by (right; vm_compute; reflexivity).
  assert (Hfits' : str_convertible default_int_max_str_digits 60)
    by (right; vm_compute; reflexivity).
  split; [exact Hfits |]. split; [exact Hfits' |].
  exact (proj1 (proj1
           (verbose_persists_across_calls host_all_pass sample_script
              default_int_max_str_digits "pkg" "act" 30 "10-31 12:00:00.000"
              "pkg" "act" 60 false "10-31 12:05:00.000" world_empty
              Hfits Hfits'))).
Defined.

(** X9: nothing is lost on the way to the shell function: two waits that
    delegate the same call, the first of them having delegated one, were
    given the same package, activity, logcat timestamp and timeout; in
    particular different timeouts never give the same argument. *)
Theorem wait_for_finish_call_lossless (host : Host) (script : string)
  (limit : nat)
  (package1 activity1 : string) (timeout1 : Z) (debug1 : bool)
  (logcat_timestamp1 : string) (w1 : World)
  (package2 activity2 : string) (timeout2 : Z) (debug2 : bool)
  (logcat_timestamp2 : string) (w2 : World) :
  new_calls w1
    (snd (wait_for_iorapd_finish host script limit package1 activity1
                                 timeout1 debug1 logcat_timestamp1 w1))
  <> [] ->
  new_calls w1
    (snd (wait_for_iorapd_finish host script limit package1 activity1
                                 timeout1 debug1 logcat_timestamp1 w1))
  = new_calls w2
      (snd (wait_for_iorapd_finish host script limit package2 activity2
                                   timeout2 debug2 logcat_timestamp2 w2)) ->
  package1 = package2 /\ activity1 = activity2
  /\ logcat_timestamp1 = logcat_timestamp2 /\ timeout1 = timeout2.
Proof.
  unfold new_calls. rewrite !wait_for_finish_new_invocations. cbn zeta.
  destruct (py_str_int limit timeout1); [| done]. intros _.
  destruct (py_str_int limit timeout2); [| done].
  unfold wait_call. intros [= -> -> -> Htimeout].
  split_and!; try done. by apply (inj pretty).
Qed.

Lemma wait_for_finish_call_lossless_witness :
  new_calls world_empty
    (snd (wait_for_iorapd_finish host_all_pass sample_script
            default_int_max_str_digits "pkg" "act" 30 true
            "10-31 12:00:00.000" world_empty))
  <> []
  /\ new_calls world_empty
       (snd (wait_for_iorapd_finish host_all_pass sample_script
               default_int_max_str_digits "pkg" "act" 30 true
               "10-31 12:00:00.000" world_empty))
     = new_calls world_with_trace
         (snd (wait_for_iorapd_finish host_all_pass sample_script
                 default_int_max_str_digits "pkg" "act" 30 false
                 "10-31 12:00:00.000" world_with_trace))
  /\ (30 = 30)%Z.
Proof.
  assert (Hcalled :
    new_calls world_empty
      (snd (wait_for_iorapd_finish host_all_pass sample_script
              default_int_max_str_digits "pkg" "act" 30 true
              "10-31 12:00:00.000" world_empty))
    <> [])
    by (vm_compute; discriminate).
  assert (Hcalls :
    new_calls world_empty
      (snd (wait_for_iorapd_finish host_all_pass sample_script
              default_int_max_str_digits "pkg" "act" 30 true
              "10-31 12:00:00.000" world_empty))
    = new_calls world_with_trace
        (snd (wait_for_iorapd_finish host_all_pass sample_script
                default_int_max_str_digits "pkg" "act" 30 false
                "10-31 12:00:00.000" world_with_trace)))
    by (vm_compute; reflexivity).
  split; [exact Hcalled |]. split; [exact Hcalls |].
  apply (wait_for_finish_call_lossless host_all_pass sample_script
           default_int_max_str_digits
           "pkg" "act" 30 true "10-31 12:00:00.000" world_empty
           "pkg" "act" 30 false "10-31 12:00:00.000" world_with_trace
           Hcalled Hcalls).
Defined.

(** X10: a timeout of more digits than the interpreter's limit is refused
    before anything is delegated: the wait raises, the wait function is not
    invoked, and nothing is printed; with [debug] true the [verbose] variable
    has been set all the same. *)
Theorem wait_for_finish_refused_timeout (host : Host) (script : string)
  (limit : nat) (package activity : string) (timeout : Z) (debug : bool)
  (logcat_timestamp : string) (w : World) :
  640 <= limit ->
  (10 ^ Z.of_nat limit <= Z.abs timeout)%Z ->
  fst (wait_for_iorapd_finish host script limit package activity timeout
                              debug logcat_timestamp w)
  = None
  /\ new_calls w
       (snd (wait_for_iorapd_finish host script limit package activity timeout
                                    debug logcat_timestamp w))
     = []
  /\ environ
       (snd (wait_for_iorapd_finish host script limit package activity timeout
                                    debug logcat_timestamp w))
     = (if debug then <["verbose" := "y"]> (environ w) else environ w)
  /\ stdout
       (snd (wait_for_iorapd_finish host script limit package activity timeout
                                    debug logcat_timestamp w))
     = stdout w.
Proof.
  intros Hlimit Hbig.
  rewrite wait_for_finish_run_refused by (done || lia). cbn [fst snd].
  unfold new_calls.
  rewrite new_invocations_same_log by apply invocations_debug_world.
  by destruct debug.
Qed.

Lemma wait_for_finish_refused_timeout_witness :
  640 <= default_int_max_str_digits
  /\ (10 ^ Z.of_nat default_int_max_str_digits <= Z.abs (10 ^ 4300))%Z
  /\ fst (wait_for_iorapd_finish host_all_pass sample_script
            default_int_max_str_digits "pkg" "act" (10 ^ 4300) true
            "10-31 12:00:00.000" world_empty)
     = None
  /\ new_calls world_empty
       (snd (wait_for_iorapd_finish host_all_pass sample_script
               default_int_max_str_digits "pkg" "act" (10 ^ 4300) true
               "10-31 12:00:00.000" world_empty))
     = [].
Proof.
  assert (Hlimit : 640 <= default_int_max_str_digits)
    by (apply Nat.leb_le; vm_compute; reflexivity).
  assert (Hbig :
    (10 ^ Z.of_nat default_int_max_str_digits <= Z.abs (10 ^ 4300))%Z)
    by (apply Z.leb_le; vm_compute; reflexivity).
  destruct (wait_for_finish_refused_timeout host_all_pass sample_script
              default_int_max_str_digits "pkg" "act" (10 ^ 4300) true
              "10-31 12:00:00.000" world_empty Hlimit Hbig)
    as (Hraise & Hcalls & _).
  split_and!; [exact Hlimit | exact Hbig | exact Hraise | exact Hcalls].
Defined.
